(** * napari track rendering and editing glue: a shallow embedding

    This development embeds three source files of napari:

    - [napari/_vispy/filters/tracks.py]: the [TracksFilter] vispy filter,
      that is its GLSL vertex shader [apply_track_shading] and the Python
      properties that upload the shader uniforms;
    - [napari/layers/image/_image_slice_data.py]: [ImageSliceData];
    - [napari/layers/tracks/_tracks_mouse_bindings.py]: the [interact]
      mouse-drag generator.

    Numbers.  A GLSL [float] and a Python [int]/[float] are modelled by a
    rational number of [Q] with exact arithmetic: rounding, infinities and
    NaN are outside the model.  Equality of numbers is therefore [Qeq]
    (written [==]).  The one place where GLSL leaves a result unspecified,
    a division by zero, is kept explicit: it yields no value ([None]). *)

From Stdlib Require Import QArith Qabs Qminmax Lqa Lia Bool List.
From stdpp Require Import base option strings gmap.
Import ListNotations.

(** ** GLSL built-ins used by the shader *)

Module GLSL.

(** [a > b] and [a >= b] on floats. *)
Definition gt (a b : Q) : bool := negb (Qle_bool a b).
Definition ge (a b : Q) : bool := Qle_bool b a.
Definition le (a b : Q) : bool := Qle_bool a b.
Definition eq (a b : Q) : bool := Qeq_bool a b.

(** [abs(x)]. *)
Definition abs (x : Q) : Q := Qabs x.

(** [clamp(x, minVal, maxVal)] is [min(max(x, minVal), maxVal)]. *)
Definition clamp (x minVal maxVal : Q) : Q := Qmin (Qmax x minVal) maxVal.

(** [a / b]: the GLSL specification leaves the result of a division by
    zero unspecified (and never interrupts the shader); [None] stands for
    that unspecified value. *)
Definition div (a b : Q) : option Q :=
  if Qeq_bool b 0 then None else Some (a / b)%Q.

End GLSL.

(** ** [TracksFilter.VERT_SHADER] *)

Module Shader.

(** The template variables [$current_time], [$current_z], ... of the
    shader, as floats. *)
Record uniforms : Type := Uniforms {
  current_time : Q;
  current_z : Q;
  tail_length : Q;
  head_length : Q;
  use_fade : Q;
  interactive : Q
}.

(** The varyings the shader writes: [v_size] and [v_track_color.a]. *)
Record varyings : Type := Varyings {
  v_size : Q;
  alpha : option Q
}.

(** [float max_distance = 3;] *)
Definition max_distance : Q := 3.

(** [float z_distance = ($current_z >= 0 ? max_distance : 1e10);] *)
Definition z_distance (u : uniforms) : Q :=
  if GLSL.ge (current_z u) 0 then max_distance else (10000000000 # 1).

(** [float size_factor = 1.0 - abs($current_z - $a_vertex_z) / max_distance;]
    (the divisor is the constant [3]). *)
Definition size_factor (u : uniforms) (a_vertex_z : Q) : Q :=
  (1 - GLSL.abs (current_z u - a_vertex_z) / max_distance)%Q.

(** [$a_vertex_time > $current_time + $head_length] *)
Definition time_cutoff (u : uniforms) (a_vertex_time : Q) : bool :=
  GLSL.gt a_vertex_time (current_time u + head_length u).

(** [$interactive == 1 && abs($current_z - $a_vertex_z) > z_distance] *)
Definition depth_cutoff (u : uniforms) (a_vertex_z : Q) : bool :=
  GLSL.eq (interactive u) 1
  && GLSL.gt (GLSL.abs (current_z u - a_vertex_z)) (z_distance u).

(** The value of the local [alpha] after the first [if]/[else]. *)
Definition window_alpha (u : uniforms) (a_vertex_time a_vertex_z : Q)
  : option Q :=
  if time_cutoff u a_vertex_time || depth_cutoff u a_vertex_z then
    if GLSL.le a_vertex_time (current_time u + 1)
    then Some (-100 # 1)
    else Some 0%Q
  else
    fade ← GLSL.div (head_length u + current_time u - a_vertex_time)
                    (tail_length u + head_length u);
    Some (GLSL.clamp (1 - fade) 0 1).

(** [void apply_track_shading()]: [v_size0] is the incoming [v_size]. *)
Definition apply_track_shading (u : uniforms)
    (a_vertex_time a_vertex_z v_size0 : Q) : varyings :=
  let v_size' := (GLSL.clamp (size_factor u a_vertex_z) 0 1 * v_size0)%Q in
  let alpha0 := window_alpha u a_vertex_time a_vertex_z in
  let alpha1 := if GLSL.eq (use_fade u) 0 then Some 1%Q else alpha0 in
  {| v_size := v_size'; alpha := alpha1 |}.

End Shader.

(** ** The Python class [TracksFilter] *)

Module TracksFilter.

(** What is assigned to [current_time]: a number, or a [slice] (the
    setter tests [isinstance(n, slice)]). *)
Inductive time_value : Type :=
| Scalar (n : Q)
| Slice.

(** What is stored under a template variable of [self.vshader]. *)
Inductive shader_value : Type :=
| Float (x : Q)
| VertexBuffer (data : list Q).

(** The attributes of a filter object.  A private attribute is [None]
    until its setter has run (reading it then raises [AttributeError]);
    [_current_z] may hold Python's [None]. *)
Record t : Type := Build {
  _current_time : option time_value;
  _current_z : option (option Q);
  _use_fade : option bool;
  _interactive : option bool;
  _tail_length : option Q;
  _head_length : option Q;
  _vertex_time : option (list Q);
  _vertex_z : option (list Q);
  vshader : gmap string shader_value
}.

(** [float(b)] for a Python [bool]. *)
Definition float_of_bool (b : bool) : Q := if b then 1%Q else 0%Q.

(** [np.max(a)]: raises on an empty array. *)
Definition np_max (a : list Q) : option Q :=
  match a with
  | [] => None
  | x :: r => Some (fold_left Qmax r x)
  end.

(** The object as [Filter.__init__] leaves it: no attribute of this
    class, no template variable bound. *)
Definition fresh : t :=
  Build None None None None None None None None ∅.

(** *** Properties: getters *)

Definition current_time (self : t) : option time_value := _current_time self.
Definition current_z (self : t) : option (option Q) := _current_z self.
Definition use_fade (self : t) : option bool := _use_fade self.
Definition interactive (self : t) : option bool := _interactive self.
Definition tail_length (self : t) : option Q := _tail_length self.
(** [return self._tail_length] *)
Definition head_length (self : t) : option Q := _tail_length self.
Definition vertex_time (self : t) : option (list Q) := _vertex_time self.
Definition vertex_z (self : t) : option (list Q) := _vertex_z self.

(** *** Properties: setters

    A setter that can raise returns [None] then. *)

Definition set_current_time (n : time_value) (self : t) : option t :=
  let self1 :=
    Build (Some n) (_current_z self) (_use_fade self) (_interactive self)
      (_tail_length self) (_head_length self) (_vertex_time self)
      (_vertex_z self) (vshader self) in
  n' ← match n with
       | Slice => a ← _vertex_time self1; np_max a
       | Scalar x => Some x
       end;
  Some (Build (_current_time self1) (_current_z self1) (_use_fade self1)
          (_interactive self1) (_tail_length self1) (_head_length self1)
          (_vertex_time self1) (_vertex_z self1)
          (<["current_time" := Float n']> (vshader self1))).

(** The uniform for [current_z]: [-1] signals that there is no z. *)
Definition z_uniform (n : option Q) : Q :=
  match n with
  | None => (-1 # 1)
  | Some x => x
  end.

Definition set_current_z (n : option Q) (self : t) : t :=
  Build (_current_time self) (Some n) (_use_fade self) (_interactive self)
    (_tail_length self) (_head_length self) (_vertex_time self)
    (_vertex_z self)
    (<["current_z" := Float (z_uniform n)]> (vshader self)).

Definition set_use_fade (value : bool) (self : t) : t :=
  Build (_current_time self) (_current_z self) (Some value)
    (_interactive self) (_tail_length self) (_head_length self)
    (_vertex_time self) (_vertex_z self)
    (<["use_fade" := Float (float_of_bool value)]> (vshader self)).

Definition set_interactive (value : bool) (self : t) : t :=
  Build (_current_time self) (_current_z self) (_use_fade self)
    (Some value) (_tail_length self) (_head_length self)
    (_vertex_time self) (_vertex_z self)
    (<["interactive" := Float (float_of_bool value)]> (vshader self)).

Definition set_tail_length (tail_length : Q) (self : t) : t :=
  Build (_current_time self) (_current_z self) (_use_fade self)
    (_interactive self) (Some tail_length) (_head_length self)
    (_vertex_time self) (_vertex_z self)
    (<["tail_length" := Float tail_length]> (vshader self)).

Definition set_head_length (head_length : Q) (self : t) : t :=
  Build (_current_time self) (_current_z self) (_use_fade self)
    (_interactive self) (_tail_length self) (Some head_length)
    (_vertex_time self) (_vertex_z self)
    (<["head_length" := Float head_length]> (vshader self)).

Definition set_vertex_time (v_time : list Q) (self : t) : t :=
  Build (_current_time self) (_current_z self) (_use_fade self)
    (_interactive self) (_tail_length self) (_head_length self)
    (Some v_time) (_vertex_z self)
    (<["a_vertex_time" := VertexBuffer v_time]> (vshader self)).

Definition set_vertex_z (v_z : list Q) (self : t) : t :=
  Build (_current_time self) (_current_z self) (_use_fade self)
    (_interactive self) (_tail_length self) (_head_length self)
    (_vertex_time self) (Some v_z)
    (<["a_vertex_z" := VertexBuffer v_z]> (vshader self)).

(** [TracksFilter.__init__]: the eight assignments, in the source's
    order.  The vertex arrays are given as lists of numbers. *)
Definition __init__ (current_time : time_value) (current_z : option Q)
    (tail_length head_length : Q) (use_fade interactive : bool)
    (vertex_time vertex_z : list Q) : option t :=
  self ← set_current_time current_time fresh;
  let self := set_current_z current_z self in
  let self := set_tail_length tail_length self in
  let self := set_head_length head_length self in
  let self := set_use_fade use_fade self in
  let self := set_interactive interactive self in
  let self := set_vertex_time vertex_time self in
  Some (set_vertex_z vertex_z self).

(** The defaults of [__init__]'s signature (with empty vertex arrays). *)
Definition default : option t :=
  __init__ (Scalar 0) (Some 0%Q) 30 0 true false [] [].

(** *** Running the shader on the filter's state *)

Definition float_var (self : t) (name : string) : option Q :=
  match vshader self !! name with
  | Some (Float x) => Some x
  | _ => None
  end.

Definition buffer_var (self : t) (name : string) : option (list Q) :=
  match vshader self !! name with
  | Some (VertexBuffer a) => Some a
  | _ => None
  end.

(** The uniforms the vertex shader reads, once all are bound. *)
Definition bound_uniforms (self : t) : option Shader.uniforms :=
  ct ← float_var self "current_time";
  cz ← float_var self "current_z";
  tl ← float_var self "tail_length";
  hl ← float_var self "head_length";
  uf ← float_var self "use_fade";
  ia ← float_var self "interactive";
  Some (Shader.Uniforms ct cz tl hl uf ia).

(** The vertex shader run on vertex [i] of the attribute buffers. *)
Definition shade (self : t) (i : nat) (v_size0 : Q)
  : option Shader.varyings :=
  u ← bound_uniforms self;
  times ← buffer_var self "a_vertex_time";
  zs ← buffer_var self "a_vertex_z";
  a_vertex_time ← times !! i;
  a_vertex_z ← zs !! i;
  Some (Shader.apply_track_shading u a_vertex_time a_vertex_z v_size0).

(** [tail_length] and [head_length] are set and non-negative. *)
Definition lengths_nonneg (self : t) : Prop :=
  match _tail_length self, _head_length self with
  | Some tl, Some hl => (0 <= tl)%Q ∧ (0 <= hl)%Q
  | _, _ => False
  end.

(** *** Parameter-setting operations

    One constructor per property setter. *)
Inductive assignment : Type :=
| SetCurrentTime (n : time_value)
| SetCurrentZ (n : option Q)
| SetUseFade (value : bool)
| SetInteractive (value : bool)
| SetTailLength (tail_length : Q)
| SetHeadLength (head_length : Q)
| SetVertexTime (v_time : list Q)
| SetVertexZ (v_z : list Q).

Definition assign (a : assignment) (self : t) : option t :=
  match a with
  | SetCurrentTime n => set_current_time n self
  | SetCurrentZ n => Some (set_current_z n self)
  | SetUseFade value => Some (set_use_fade value self)
  | SetInteractive value => Some (set_interactive value self)
  | SetTailLength v => Some (set_tail_length v self)
  | SetHeadLength v => Some (set_head_length v self)
  | SetVertexTime v => Some (set_vertex_time v self)
  | SetVertexZ v => Some (set_vertex_z v self)
  end.

(** The assignment gives no negative value to a length. *)
Definition nonneg_assignment (a : assignment) : Prop :=
  match a with
  | SetTailLength v | SetHeadLength v => (0 <= v)%Q
  | _ => True
  end.

(** The filters obtained by constructing one with non-negative lengths
    and then assigning only non-negative lengths. *)
Inductive nonneg_history : t → Prop :=
| history_init ct cz tl hl uf ia vts vzs self :
    (0 <= tl)%Q → (0 <= hl)%Q →
    __init__ ct cz tl hl uf ia vts vzs = Some self →
    nonneg_history self
| history_assign a self self' :
    nonneg_history self →
    nonneg_assignment a →
    assign a self = Some self' →
    nonneg_history self'.

End TracksFilter.

(** ** The visibility computation of one vertex

    [compute_alpha] is the alpha the vertex shader writes for a single
    vertex when the filter was constructed with the given parameters. *)

Definition shader_uniforms (current_time : Q) (current_depth : option Q)
    (tail_length head_length : Q) (use_fade interactive : bool)
  : Shader.uniforms :=
  Shader.Uniforms current_time (TracksFilter.z_uniform current_depth)
    tail_length head_length (TracksFilter.float_of_bool use_fade)
    (TracksFilter.float_of_bool interactive).

Definition compute_varyings (vertex_time vertex_depth current_time : Q)
    (current_depth : option Q) (tail_length head_length : Q)
    (use_fade interactive : bool) : option Shader.varyings :=
  self ← TracksFilter.__init__ (TracksFilter.Scalar current_time)
           current_depth tail_length head_length use_fade interactive
           [vertex_time] [vertex_depth];
  TracksFilter.shade self 0 1.

Definition compute_alpha (vertex_time vertex_depth current_time : Q)
    (current_depth : option Q) (tail_length head_length : Q)
    (use_fade interactive : bool) : option Q :=
  v ← compute_varyings vertex_time vertex_depth current_time current_depth
        tail_length head_length use_fade interactive;
  Shader.alpha v.

(** ** [ImageSliceData] *)

Module ImageSliceData.

(** How a method call ends: it returns [None], or an exception raised by
    numpy propagates (the assignments made before it stay). *)
Inductive outcome : Type :=
| Returned
| Raised.

Section WithNumpy.

Context {Layer Index ArrayLike Order : Type}.

(** numpy's [np.asarray(a)] and [np.transpose(a, order)]; [None] when
    the call raises (an [order] that does not fit the array, a lazy
    array that fails to load). *)
Variable np_asarray : ArrayLike → option ArrayLike.
Variable np_transpose : ArrayLike → Order → option ArrayLike.

(** The four attributes set by [__init__]; [thumbnail_source] may be
    Python's [None]. *)
Record t : Type := Build {
  layer : Layer;
  indices : list (option Index);
  image : ArrayLike;
  thumbnail_source : option ArrayLike
}.

Definition __init__ (layer : Layer) (indices : list (option Index))
    (image : ArrayLike) (thumbnail_source : option ArrayLike) : t :=
  Build layer indices image thumbnail_source.

(** [self.image = f(self.image)], then the same on
    [self.thumbnail_source] when it is not [None]. *)
Definition on_both (f : ArrayLike → option ArrayLike) (self : t)
  : outcome * t :=
  match f (image self) with
  | None => (Raised, self)
  | Some image' =>
      let self1 :=
        Build (layer self) (indices self) image' (thumbnail_source self) in
      match thumbnail_source self1 with
      | None => (Returned, self1)
      | Some source =>
          match f source with
          | None => (Raised, self1)
          | Some source' =>
              (Returned,
               Build (layer self1) (indices self1) (image self1)
                 (Some source'))
          end
      end
  end.

Definition load_sync (self : t) : outcome * t :=
  on_both np_asarray self.

Definition transpose (order : Order) (self : t) : outcome * t :=
  on_both (λ a, np_transpose a order) self.

End WithNumpy.

Arguments t : clear implicits.

End ImageSliceData.

(** ** [interact], the mouse-drag callback of the tracks layer *)

Module TracksMouseBindings.

(** The event object: the callback reads [modifiers], [position] and
    [type].  The event loop updates the object between two resumptions of
    the generator, so every resumption is given its current contents. *)
Record Event {Position : Type} : Type := MkEvent {
  modifiers : list string;
  position : Position;
  type : string
}.
Arguments Event : clear implicits.
Arguments MkEvent {Position} modifiers position type.

(** The editing operations of the layer, as they appear in a trace. *)
Inductive call {Position TrackId VertexId : Type} : Type :=
| Add (position : Position) (track_id : TrackId)
| Select (position : Position)
| Remove (vertex : VertexId)
| Move (vertex : VertexId) (position : Position)
| Join (vertex1 vertex2 : VertexId).
Arguments call : clear implicits.

(** Modelled from the spec: the tracks layer is not part of these
    sources; it is the track-editing collaborator exposing
    [add(position, track_id)], [select(position) -> optional vertex id],
    [remove(vertex id)], [move(vertex id, position)] and [join(id, id)],
    with the two attributes [interact] reads and writes.  Every method
    may change the layer. *)
Class TrackLayer (Position TrackId VertexId L : Type) : Type := {
  add : Position → TrackId → L → L;
  select : Position → L → option VertexId * L;
  remove : VertexId → L → L;
  move : VertexId → Position → L → L;
  join : VertexId → VertexId → L → L;
  _current_track_id : L → TrackId;
  _selected_data : L → option VertexId;
  set_selected_data : option VertexId → L → L
}.

(** Where the generator stands: not yet started, suspended at a [yield]
    of the Control branch (both resume at the [while] test, holding
    [selected]), or finished. *)
Inductive generator {VertexId : Type} : Type :=
| Created
| Dragging (selected : VertexId)
| Finished.
Arguments generator : clear implicits.

Section Interact.

Context {Position TrackId VertexId L : Type}.
Context {methods : TrackLayer Position TrackId VertexId L}.

Local Abbreviation call := (call Position TrackId VertexId).
Local Abbreviation Event := (Event Position).
Local Abbreviation generator := (generator VertexId).

(** The layer together with the trace of the calls made on it. *)
Definition world : Type := L * list call.

Definition do_call (c : call) (f : L → L) (w : world) : world :=
  (f (fst w), snd w ++ [c]).

Definition do_select (p : Position) (w : world)
  : option VertexId * world :=
  let r := select p (fst w) in
  (fst r, (snd r, snd w ++ [Select p])).

(** The body of [interact] from its start to the first [yield] or to
    its end. *)
Definition start (event : Event) (w : world) : generator * world :=
  match modifiers event with
  | [m] =>
      if String.eqb m "Shift" then
        (Finished,
         do_call (Add (position event) (_current_track_id (fst w)))
           (add (position event) (_current_track_id (fst w))) w)
      else if String.eqb m "Alt" then
        let '(selected, w1) := do_select (position event) w in
        match selected with
        | Some v => (Finished, do_call (Remove v) (remove v) w1)
        | None => (Finished, w1)
        end
      else if String.eqb m "Control" then
        let '(selected, w1) := do_select (position event) w in
        match selected with
        | None => (Finished, w1)
        | Some v => (Dragging v, w1)
        end
      else (Finished, w)
  | [m1; m2] =>
      if bool_decide ("Shift" ∈ [m1; m2])
         && bool_decide ("Control" ∈ [m1; m2]) then
        let '(selected, w1) := do_select (position event) w in
        match _selected_data (fst w1) with
        | None => (Finished, (set_selected_data selected (fst w1), snd w1))
        | Some first =>
            match selected with
            | Some v => (Finished, do_call (Join first v) (join first v) w1)
            | None => (Finished, w1)
            end
        end
      else (Finished, w)
  | _ => (Finished, w)
  end.

(** [next(gen)]: runs the generator to its next [yield] or to its end,
    reading the event as it is now. *)
Definition next (event : Event) (g : generator) (w : world)
  : generator * world :=
  match g with
  | Created => start event w
  | Dragging selected =>
      if String.eqb (type event) "mouse_move" then
        (Dragging selected,
         do_call (Move selected (position event))
           (move selected (position event)) w)
      else (Finished, w)
  | Finished => (Finished, w)
  end.

(** Modelled from the spec: the event loop that drives the callback is
    not part of these sources.  The drag begins on press, control comes
    back to the generator on each later event, and the drag ends on
    release: [resume] feeds the later events to the generator, one
    [next] each, until it has finished. *)
Fixpoint resume (later : list Event) (g : generator) (w : world)
  : generator * world :=
  match later with
  | [] => (g, w)
  | event :: later' =>
      match g with
      | Finished => (g, w)
      | _ => let '(g', w') := next event g w in resume later' g' w'
      end
  end.

(** A whole interaction: [press] is the event [interact] is called
    with, [later] the contents of the event at each resumption. *)
Definition interaction (layer : L) (press : Event) (later : list Event)
  : generator * world :=
  let '(g, w) := next press Created (layer, []) in
  resume later g w.

(** The calls made during an interaction. *)
Definition trace (layer : L) (press : Event) (later : list Event)
  : list call :=
  snd (snd (interaction layer press later)).

(** The positions of the events up to the first that is not a
    [mouse_move]. *)
Fixpoint moves_until_release (later : list Event) : list Position :=
  match later with
  | [] => []
  | event :: later' =>
      if String.eqb (type event) "mouse_move"
      then position event :: moves_until_release later'
      else []
  end.

End Interact.

(** A layer for running [interact] on examples: positions and vertex ids
    are numbers, [select] finds the vertex at the position plus one hundred
    when the position is not [0], and no method changes the layer. *)
#[local] Instance probe_layer : TrackLayer nat nat nat (nat * option nat) := {|
  add := λ _ _ l, l;
  select := λ p l, (if Nat.eqb p 0 then None else Some (100 + p), l);
  remove := λ _ l, l;
  move := λ _ _ l, l;
  join := λ _ _ l, l;
  _current_track_id := fst;
  _selected_data := snd;
  set_selected_data := λ v l, (fst l, v)
|}.

End TracksMouseBindings.

(** ** [TracksFilter.FRAG_SHADER] *)

Module FragShader.

(** [void apply_track_shading()] of the fragment shader, on the
    interpolated varyings [v_track_color.a] and [v_size] and the incoming
    [gl_FragColor.a].  The result is the new [gl_FragColor.a], or [None]
    when the fragment is discarded. *)
Definition apply_track_shading (v_track_color_a v_size gl_FragColor_a : Q)
  : option Q :=
  if GLSL.le v_track_color_a 0 || GLSL.le v_size 0 then None
  else Some (GLSL.clamp (v_track_color_a * gl_FragColor_a) 0 1).

End FragShader.

(** ** The template variable each setter writes *)

Definition template_variable (a : TracksFilter.assignment) : string :=
  match a with
  | TracksFilter.SetCurrentTime _ => "current_time"
  | TracksFilter.SetCurrentZ _ => "current_z"
  | TracksFilter.SetUseFade _ => "use_fade"
  | TracksFilter.SetInteractive _ => "interactive"
  | TracksFilter.SetTailLength _ => "tail_length"
  | TracksFilter.SetHeadLength _ => "head_length"
  | TracksFilter.SetVertexTime _ => "a_vertex_time"
  | TracksFilter.SetVertexZ _ => "a_vertex_z"
  end.

(** * Properties *)

(** ** Comparisons and built-ins *)

Lemma gt_true a b : GLSL.gt a b = true ↔ (b < a)%Q.
Proof.
  unfold GLSL.gt. rewrite negb_true_iff, <- not_true_iff_false, Qle_bool_iff.
  split; [apply Qnot_le_lt | apply Qlt_not_le].
Qed.


Lemma le_true a b : GLSL.le a b = true ↔ (a <= b)%Q.
Proof. apply Qle_bool_iff. Qed.

Lemma le_false a b : GLSL.le a b = false ↔ (b < a)%Q.
Proof.
  unfold GLSL.le. rewrite <- not_true_iff_false, Qle_bool_iff.
  split; [apply Qnot_le_lt | apply Qlt_not_le].
Qed.


Lemma div_by_zero a b : (b == 0)%Q → GLSL.div a b = None.
Proof.
  intros Hb. unfold GLSL.div.
  apply Qeq_bool_iff in Hb. now rewrite Hb.
Qed.

Lemma clamp_inside x : (0 <= x)%Q → (x <= 1)%Q → (GLSL.clamp x 0 1 == x)%Q.
Proof.
  intros H0 H1. unfold GLSL.clamp.
  rewrite (Q.max_l x 0 H0). now apply Q.min_l.
Qed.

Lemma clamp_range x : (0 <= GLSL.clamp x 0 1 <= 1)%Q.
Proof.
  unfold GLSL.clamp.
  destruct (Q.max_spec x 0) as [[? Hm]|[? Hm]];
    destruct (Q.min_spec (Qmax x 0) 1) as [[? Hn]|[? Hn]];
    rewrite Hn; rewrite ?Hm in *; lra.
Qed.

(** ** The filter's state reaches the shader unchanged *)

Lemma compute_varyings_eq vt vd ct cd tl hl uf ia :
  compute_varyings vt vd ct cd tl hl uf ia =
  Some (Shader.apply_track_shading (shader_uniforms ct cd tl hl uf ia) vt vd 1).
Proof.
  unfold compute_varyings, TracksFilter.__init__, TracksFilter.shade,
    TracksFilter.bound_uniforms, TracksFilter.float_var,
    TracksFilter.buffer_var.
  cbn [TracksFilter.set_current_time TracksFilter.fresh mbind option_bind
       TracksFilter.vshader TracksFilter.set_current_z
       TracksFilter.set_tail_length TracksFilter.set_head_length
       TracksFilter.set_use_fade TracksFilter.set_interactive
       TracksFilter.set_vertex_time TracksFilter.set_vertex_z].
  simplify_map_eq. reflexivity.
Qed.

Lemma compute_alpha_eq vt vd ct cd tl hl uf ia :
  compute_alpha vt vd ct cd tl hl uf ia =
  if uf
  then Shader.window_alpha (shader_uniforms ct cd tl hl uf ia) vt vd
  else Some 1%Q.
Proof.
  unfold compute_alpha. rewrite compute_varyings_eq.
  destruct uf; reflexivity.
Qed.



(** Within the window the fade branch is taken. *)
Lemma window_alpha_fade u vt vd :
  Shader.time_cutoff u vt = false →
  Shader.depth_cutoff u vd = false →
  Shader.window_alpha u vt vd =
  fade ← GLSL.div (Shader.head_length u + Shader.current_time u - vt)
                  (Shader.tail_length u + Shader.head_length u);
  Some (GLSL.clamp (1 - fade) 0 1).
Proof. intros Ht Hd. unfold Shader.window_alpha. now rewrite Ht, Hd. Qed.

(** ** The worked examples of the shader *)

Example alpha_at_head :
  ∃ a, compute_alpha 12 0 10 (Some 0%Q) 5 2 true false = Some a ∧ (a == 1)%Q.
Proof. eexists. split; [vm_compute; reflexivity | reflexivity]. Qed.

Example alpha_at_tail :
  ∃ a, compute_alpha 5 0 10 (Some 0%Q) 5 2 true false = Some a ∧ (a == 0)%Q.
Proof. eexists. split; [vm_compute; reflexivity | reflexivity]. Qed.

Example alpha_mid_window :
  ∃ a, compute_alpha (17 # 2) 0 10 (Some 0%Q) 5 2 true false = Some a
       ∧ (a == 1 # 2)%Q.
Proof. eexists. split; [vm_compute; reflexivity | reflexivity]. Qed.

Example alpha_future :
  compute_alpha 13 0 10 (Some 0%Q) 5 2 true false = Some 0%Q.
Proof. vm_compute. reflexivity. Qed.

Example alpha_just_ahead :
  compute_alpha (21 # 2) 0 10 (Some 0%Q) 5 0 true false = Some (-100 # 1).
Proof. vm_compute. reflexivity. Qed.

Example alpha_depth_culled :
  compute_alpha 10 5 10 (Some 0%Q) 5 2 true true = Some (-100 # 1).
Proof. vm_compute. reflexivity. Qed.

(** ** Vertices ahead of the head *)




(** ** The fade window *)




(** C3: with [use_fade] off, alpha is exactly [1] for every vertex time and
    depth, current time and depth, tail and head length and [interactive]
    flag: the override comes last, after the hidden branch and after the
    fade branch (also when the fade's division is by zero).  The same holds
    in the shader for any uniforms whose [use_fade] is [0]. *)
Theorem no_fade_alpha_one vt vd ct cd tl hl ia :
  compute_alpha vt vd ct cd tl hl false ia = Some 1%Q
  ∧ ∀ u v_size0,
      (Shader.use_fade u == 0)%Q →
      Shader.alpha (Shader.apply_track_shading u vt vd v_size0) = Some 1%Q.
Proof.
  split.
  - rewrite compute_alpha_eq. reflexivity.
  - intros u v_size0 Hoff. unfold Shader.apply_track_shading, GLSL.eq.
    apply Qeq_bool_iff in Hoff. cbn [Shader.alpha]. now rewrite Hoff.
Qed.



(** C6: with [interactive] off, alpha does not depend on depth: two
    computations that agree on the vertex time, the current time, the tail
    and head lengths and [use_fade] give the same alpha, whatever the
    vertex depths and the current depths (set or not). *)
Theorem alpha_depth_independent vt ct tl hl uf vd vd' cd cd' :
  compute_alpha vt vd ct cd tl hl uf false
  = compute_alpha vt vd' ct cd' tl hl uf false.
Proof. rewrite !compute_alpha_eq. destruct uf; reflexivity. Qed.

(** The size factor, however, still follows the depth. *)
Example size_depends_on_depth :
  ∃ v v',
    compute_varyings 10 0 10 (Some 0%Q) 5 2 true false = Some v
    ∧ compute_varyings 10 5 10 (Some 0%Q) 5 2 true false = Some v'
    ∧ (Shader.v_size v == 1)%Q ∧ (Shader.v_size v' == 0)%Q
    ∧ Shader.alpha v = Shader.alpha v'.
Proof.
  eexists _, _. rewrite !compute_varyings_eq.
  split; [reflexivity|]. split; [reflexivity|].
  vm_compute. repeat split; reflexivity.
Qed.

(** ** A zero-length window *)

(** C4, as stated, fails: lengths [0] and [0] are stored and uploaded as
    they are, and a vertex at the current time is shaded through the fade
    branch, whose division is by zero: alpha is the unspecified result, not
    full opacity. *)
Lemma zero_window_divides_by_zero :
  (self ← TracksFilter.__init__ (TracksFilter.Scalar 10) (Some 0%Q) 0 0
            true false [10%Q] [0%Q];
   Some (TracksFilter._tail_length self, TracksFilter._head_length self,
         TracksFilter.float_var self "tail_length",
         TracksFilter.float_var self "head_length"))
  = Some (Some 0%Q, Some 0%Q, Some 0%Q, Some 0%Q)
  ∧ Shader.window_alpha (shader_uniforms 10 (Some 0%Q) 0 0 true false) 10 0
    = (fade ← GLSL.div (0 + 10 - 10) (0 + 0); Some (GLSL.clamp (1 - fade) 0 1))
  ∧ GLSL.div (0 + 10 - 10) (0 + 0) = None
  ∧ compute_alpha 10 0 10 (Some 0%Q) 0 0 true false = None
  ∧ compute_alpha 10 0 10 (Some 0%Q) 0 0 true false ≠ Some 1%Q.
Proof. vm_compute. repeat split; discriminate. Qed.

Lemma set_lengths_stored tl hl self :
  let self' := TracksFilter.set_head_length hl
                 (TracksFilter.set_tail_length tl self) in
  TracksFilter._tail_length self' = Some tl
  ∧ TracksFilter._head_length self' = Some hl
  ∧ TracksFilter.float_var self' "tail_length" = Some tl
  ∧ TracksFilter.float_var self' "head_length" = Some hl.
Proof.
  unfold TracksFilter.float_var. cbn. simplify_map_eq. repeat split.
Qed.

(** C4 (amended): when [tail_length + head_length == 0] and [use_fade] is
    on, nothing guards the division of the fade: the setters store and
    upload both lengths unchanged, and alpha is the unspecified result of a
    division by zero for exactly the vertices that are not hidden. *)
Theorem zero_window_unguarded vt vd ct cd tl hl ia :
  (tl + hl == 0)%Q →
  (∀ self,
     let self' := TracksFilter.set_head_length hl
                    (TracksFilter.set_tail_length tl self) in
     TracksFilter._tail_length self' = Some tl
     ∧ TracksFilter._head_length self' = Some hl
     ∧ TracksFilter.float_var self' "tail_length" = Some tl
     ∧ TracksFilter.float_var self' "head_length" = Some hl)
  ∧ (compute_alpha vt vd ct cd tl hl true ia = None
     ↔ Shader.time_cutoff (shader_uniforms ct cd tl hl true ia) vt = false
       ∧ Shader.depth_cutoff (shader_uniforms ct cd tl hl true ia) vd = false).
Proof.
  intros Hsum. split; [intros self; apply set_lengths_stored|].
  rewrite compute_alpha_eq. split.
  - unfold Shader.window_alpha. intros H.
    destruct (Shader.time_cutoff _ vt); [|destruct (Shader.depth_cutoff _ vd)];
      cbn [orb] in H; [| |now split];
      destruct (GLSL.le vt _); discriminate.
  - intros [Ht Hd]. rewrite window_alpha_fade by assumption.
    cbn [Shader.head_length Shader.current_time Shader.tail_length
         shader_uniforms].
    now rewrite div_by_zero.
Qed.

Lemma zero_window_unguarded_witness :
  compute_alpha 10 0 10 (Some 0%Q) 0 0 true false = None.
Proof.
  apply (zero_window_unguarded 10 0 10 (Some 0%Q) 0 0 false);
    [reflexivity | split; reflexivity].
Defined.

(** ** Setting and reading the filter's parameters *)

(** Five of the six parameters read back what was assigned, with the
    derived value in the uniform, from any prior state. *)
Lemma set_get_current_time x self self' :
  TracksFilter.set_current_time (TracksFilter.Scalar x) self = Some self' →
  TracksFilter.current_time self' = Some (TracksFilter.Scalar x)
  ∧ TracksFilter.float_var self' "current_time" = Some x.
Proof.
  intros [= <-]. unfold TracksFilter.float_var. cbn.
  simplify_map_eq. now split.
Qed.

Lemma set_get_current_z n self :
  let self' := TracksFilter.set_current_z n self in
  TracksFilter.current_z self' = Some n
  ∧ TracksFilter.float_var self' "current_z"
    = Some (TracksFilter.z_uniform n).
Proof. unfold TracksFilter.float_var. cbn. simplify_map_eq. now split. Qed.

Lemma set_get_use_fade b self :
  let self' := TracksFilter.set_use_fade b self in
  TracksFilter.use_fade self' = Some b
  ∧ TracksFilter.float_var self' "use_fade"
    = Some (TracksFilter.float_of_bool b).
Proof. unfold TracksFilter.float_var. cbn. simplify_map_eq. now split. Qed.

Lemma set_get_interactive b self :
  let self' := TracksFilter.set_interactive b self in
  TracksFilter.interactive self' = Some b
  ∧ TracksFilter.float_var self' "interactive"
    = Some (TracksFilter.float_of_bool b).
Proof. unfold TracksFilter.float_var. cbn. simplify_map_eq. now split. Qed.

Lemma set_get_tail_length v self :
  let self' := TracksFilter.set_tail_length v self in
  TracksFilter.tail_length self' = Some v
  ∧ TracksFilter.float_var self' "tail_length" = Some v.
Proof. unfold TracksFilter.float_var. cbn. simplify_map_eq. now split. Qed.

(** [head_length] uploads the assigned value but reads back the tail
    length of the prior state. *)
Lemma set_get_head_length v self :
  let self' := TracksFilter.set_head_length v self in
  TracksFilter.head_length self' = TracksFilter._tail_length self
  ∧ TracksFilter._head_length self' = Some v
  ∧ TracksFilter.float_var self' "head_length" = Some v.
Proof. unfold TracksFilter.float_var. cbn. simplify_map_eq. now split. Qed.

(** C7: the round trip fails for [head_length].  On a filter built with the
    defaults ([tail_length = 30]), after [head_length = 5] the property
    [head_length] reads [30], the tail length, although the attribute and
    the uniform hold [5]. *)
Theorem head_length_reads_tail_length :
  (self ← TracksFilter.default;
   let self' := TracksFilter.set_head_length 5 self in
   Some (TracksFilter.head_length self',
         TracksFilter._head_length self',
         TracksFilter.float_var self' "head_length"))
  = Some (Some 30%Q, Some 5%Q, Some 5%Q).
Proof. vm_compute. reflexivity. Qed.

(** ** Signs of the lengths *)

(** C8, as stated, fails: on a filter built with the defaults, where both
    lengths are non-negative, [tail_length = -1] is accepted and stored;
    so is a negative length given to the constructor. *)
Lemma negative_length_accepted :
  (∃ self,
     TracksFilter.default = Some self
     ∧ TracksFilter.lengths_nonneg self
     ∧ TracksFilter._tail_length (TracksFilter.set_tail_length (-1 # 1) self)
       = Some (-1 # 1)
     ∧ ¬ TracksFilter.lengths_nonneg
           (TracksFilter.set_tail_length (-1 # 1) self))
  ∧ (∃ self,
       TracksFilter.__init__ (TracksFilter.Scalar 0) (Some 0%Q) 30 (-2 # 1)
         true false [] [] = Some self
       ∧ ¬ TracksFilter.lengths_nonneg self).
Proof.
  split.
  - eexists. split; [vm_compute; reflexivity|].
    split; [split; discriminate|].
    split; [reflexivity|].
    intros [H _]. now apply H.
  - eexists. split; [vm_compute; reflexivity|].
    intros [_ H]. now apply H.
Qed.

Lemma assign_lengths a self self' :
  TracksFilter.assign a self = Some self' →
  TracksFilter._tail_length self' =
    match a with
    | TracksFilter.SetTailLength v => Some v
    | _ => TracksFilter._tail_length self
    end
  ∧ TracksFilter._head_length self' =
    match a with
    | TracksFilter.SetHeadLength v => Some v
    | _ => TracksFilter._head_length self
    end.
Proof.
  destruct a; cbn; try (intros [= <-]; now split).
  unfold TracksFilter.set_current_time.
  destruct n as [x|]; cbn; [intros [= <-]; now split|].
  destruct (TracksFilter._vertex_time self) as [vts|]; cbn; [|discriminate].
  destruct (TracksFilter.np_max vts); cbn; [|discriminate].
  intros [= <-]; now split.
Qed.

Lemma init_lengths ct cz tl hl uf ia vts vzs self :
  TracksFilter.__init__ ct cz tl hl uf ia vts vzs = Some self →
  TracksFilter._tail_length self = Some tl
  ∧ TracksFilter._head_length self = Some hl.
Proof.
  unfold TracksFilter.__init__.
  destruct (TracksFilter.set_current_time ct TracksFilter.fresh); cbn;
    [|discriminate].
  intros [= <-]. now split.
Qed.

(** C8 (amended): the setters store any value, so the invariant is the
    caller's: [tail_length >= 0] and [head_length >= 0] hold after a
    construction with non-negative lengths (the defaults are), and every
    parameter-setting operation preserves them provided it assigns no
    negative value to [tail_length] or [head_length]. *)
Theorem lengths_nonneg_preserved self :
  TracksFilter.nonneg_history self → TracksFilter.lengths_nonneg self.
Proof.
  induction 1 as [ct cz tl hl uf ia vts vzs self Htl Hhl Hinit
                 | a self self' _ IH Ha Hassign].
  - apply init_lengths in Hinit as [Et Eh].
    unfold TracksFilter.lengths_nonneg. rewrite Et, Eh. now split.
  - apply assign_lengths in Hassign as [Et Eh].
    unfold TracksFilter.lengths_nonneg in *. rewrite Et, Eh.
    destruct (TracksFilter._tail_length self) as [tl|]; [|contradiction].
    destruct (TracksFilter._head_length self) as [hl|]; [|contradiction].
    destruct IH as [Htl Hhl]. destruct a; cbn in Ha; now split.
Qed.

Lemma lengths_nonneg_preserved_witness :
  ∃ self,
    TracksFilter.default = Some self
    ∧ TracksFilter.lengths_nonneg (TracksFilter.set_tail_length 0 self).
Proof.
  eexists. split; [reflexivity|].
  apply lengths_nonneg_preserved.
  eapply (TracksFilter.history_assign (TracksFilter.SetTailLength 0));
    [| discriminate | reflexivity].
  eapply (TracksFilter.history_init (TracksFilter.Scalar 0) (Some 0%Q) 30 0
            true false [] []); [discriminate | discriminate | reflexivity].
Defined.

(** ** The calls made by [interact] *)

Section InteractTrace.

Import TracksMouseBindings.

Context {Position TrackId VertexId L : Type}.
Context {methods : TrackLayer Position TrackId VertexId L}.

Lemma resume_finished (later : list (Event Position))
    (w : L * list (call Position TrackId VertexId)) :
  resume later Finished w = (Finished, w).
Proof. now destruct later. Qed.



End InteractTrace.

Example drag_three_moves :
  TracksMouseBindings.trace (methods := TracksMouseBindings.probe_layer) (7, None)
    (TracksMouseBindings.MkEvent ["Control"] 1 "mouse_press")
    [TracksMouseBindings.MkEvent ["Control"] 2 "mouse_move";
     TracksMouseBindings.MkEvent ["Control"] 3 "mouse_move";
     TracksMouseBindings.MkEvent ["Control"] 3 "mouse_release";
     TracksMouseBindings.MkEvent ["Control"] 9 "mouse_move"]
  = [TracksMouseBindings.Select 1; TracksMouseBindings.Move 101 2;
     TracksMouseBindings.Move 101 3].
Proof. reflexivity. Qed.

Example drag_nothing_selected :
  TracksMouseBindings.trace (methods := TracksMouseBindings.probe_layer) (7, None)
    (TracksMouseBindings.MkEvent ["Control"] 0 "mouse_press")
    [TracksMouseBindings.MkEvent ["Control"] 2 "mouse_move"]
  = [TracksMouseBindings.Select 0].
Proof. reflexivity. Qed.

Example shift_adds :
  TracksMouseBindings.trace (methods := TracksMouseBindings.probe_layer) (7, None)
    (TracksMouseBindings.MkEvent ["Shift"] 4 "mouse_press") []
  = [TracksMouseBindings.Add 4 7].
Proof. reflexivity. Qed.

Example shift_control_selects_then_joins :
  TracksMouseBindings.trace (methods := TracksMouseBindings.probe_layer) (7, None)
    (TracksMouseBindings.MkEvent ["Control"; "Shift"] 4 "mouse_press") []
  = [TracksMouseBindings.Select 4]
  ∧ TracksMouseBindings.trace (methods := TracksMouseBindings.probe_layer)
      (7, Some 104)
      (TracksMouseBindings.MkEvent ["Control"; "Shift"] 5 "mouse_press") []
    = [TracksMouseBindings.Select 5; TracksMouseBindings.Join 104 105].
Proof. split; reflexivity. Qed.

(** ** What [ImageSliceData]'s methods leave alone *)

(** C10: [load_sync] and [transpose] change only [image] and
    [thumbnail_source]: [layer] and [indices] are as before, whether the
    call returns or numpy raises; and when [thumbnail_source] is [None] it
    stays [None] and numpy is applied to [image] alone. *)
Theorem slice_data_frame {Layer Index ArrayLike Order : Type}
    (np_asarray : ArrayLike → option ArrayLike)
    (np_transpose : ArrayLike → Order → option ArrayLike)
    (order : Order) (self : ImageSliceData.t Layer Index ArrayLike)
    (l : Layer) (ix : list (option Index)) (img : ArrayLike) :
  let loaded := snd (ImageSliceData.load_sync np_asarray self) in
  let transposed := snd (ImageSliceData.transpose np_transpose order self) in
  ImageSliceData.layer loaded = ImageSliceData.layer self
  ∧ ImageSliceData.indices loaded = ImageSliceData.indices self
  ∧ ImageSliceData.layer transposed = ImageSliceData.layer self
  ∧ ImageSliceData.indices transposed = ImageSliceData.indices self
  ∧ ImageSliceData.load_sync np_asarray (ImageSliceData.Build l ix img None)
    = match np_asarray img with
      | Some img' =>
          (ImageSliceData.Returned, ImageSliceData.Build l ix img' None)
      | None => (ImageSliceData.Raised, ImageSliceData.Build l ix img None)
      end
  ∧ ImageSliceData.transpose np_transpose order
      (ImageSliceData.Build l ix img None)
    = match np_transpose img order with
      | Some img' =>
          (ImageSliceData.Returned, ImageSliceData.Build l ix img' None)
      | None => (ImageSliceData.Raised, ImageSliceData.Build l ix img None)
      end.
Proof.
  unfold ImageSliceData.load_sync, ImageSliceData.transpose,
    ImageSliceData.on_both.
  destruct self as [l0 ix0 img0 [src|]]; cbn;
    destruct (np_asarray img0), (np_transpose img0 order); cbn;
    try destruct (np_asarray src); try destruct (np_transpose src order);
    cbn; repeat split;
    destruct (np_asarray img), (np_transpose img order); reflexivity.
Qed.

(** Both arrays are transformed when a thumbnail source is present. *)
Example transpose_both :
  ImageSliceData.transpose (λ (a : list nat) (_ : unit), Some (rev a)) ()
    (ImageSliceData.Build "layer" [None; Some 2] [1; 2; 3] (Some [4; 5]))
  = (ImageSliceData.Returned,
     ImageSliceData.Build "layer" [None; Some 2] [3; 2; 1] (Some [5; 4])).
Proof. reflexivity. Qed.

(** * Further properties of the code *)

(** ** Depth in the vertex shader *)

Lemma depth_cutoff_true ct cd tl hl uf vd :
  Shader.depth_cutoff (shader_uniforms ct cd tl hl uf true) vd = true
  ↔ (Shader.z_distance (shader_uniforms ct cd tl hl uf true)
     < Qabs (TracksFilter.z_uniform cd - vd))%Q.
Proof. unfold Shader.depth_cutoff. cbn [andb]. apply gt_true. Qed.


Lemma z_distance_unset ct cd tl hl uf ia :
  (TracksFilter.z_uniform cd < 0)%Q →
  Shader.z_distance (shader_uniforms ct cd tl hl uf ia) = (10000000000 # 1).
Proof.
  intros Hz. unfold Shader.z_distance, GLSL.ge. cbn.
  destruct (Qle_bool 0 (TracksFilter.z_uniform cd)) eqn:E; [|reflexivity].
  apply Qle_bool_iff in E. lra.
Qed.



(** X2: when the current depth is unset ([None], uploaded as [-1]) or
    negative, the culling radius is [1e10]: for a vertex within that
    distance, [interactive] makes no difference to alpha. *)
Theorem unset_depth_never_culls vt vd ct cd tl hl uf :
  (TracksFilter.z_uniform cd < 0)%Q →
  (Qabs (TracksFilter.z_uniform cd - vd) <= 10000000000 # 1)%Q →
  Shader.depth_cutoff (shader_uniforms ct cd tl hl uf true) vd = false
  ∧ compute_alpha vt vd ct cd tl hl uf true
    = compute_alpha vt vd ct cd tl hl uf false.
Proof.
  intros Hz Hnear.
  assert (Hd : Shader.depth_cutoff (shader_uniforms ct cd tl hl uf true) vd
               = false).
  { apply not_true_is_false. rewrite depth_cutoff_true, z_distance_unset by
      exact Hz. lra. }
  split; [exact Hd|].
  rewrite !compute_alpha_eq. destruct uf; [|reflexivity].
  unfold Shader.window_alpha. rewrite Hd. reflexivity.
Qed.

Lemma unset_depth_never_culls_witness :
  compute_alpha 10 500 10 None 5 2 true true
  = compute_alpha 10 500 10 None 5 2 true false.
Proof.
  apply (unset_depth_never_culls 10 500 10 None 5 2 true);
    [reflexivity | discriminate].
Defined.

(** ** Which vertices are visible *)






(** X4: whatever the parameters, an alpha that is defined is either the
    sentinel [-100] or lies in [[0, 1]]. *)
Theorem alpha_range vt vd ct cd tl hl uf ia a :
  compute_alpha vt vd ct cd tl hl uf ia = Some a →
  a = (-100 # 1) ∨ (0 <= a <= 1)%Q.
Proof.
  rewrite compute_alpha_eq. destruct uf.
  - unfold Shader.window_alpha.
    destruct (_ || _).
    + destruct (GLSL.le vt _); intros [= <-]; [now left | right; lra].
    + destruct (GLSL.div _ _) as [fade|]; cbn; [|discriminate].
      intros [= <-]. right. apply clamp_range.
  - intros [= <-]. right. lra.
Qed.

Lemma alpha_range_witness :
  (7 # 14) = (-100 # 1) ∨ (0 <= 7 # 14 <= 1)%Q.
Proof.
  apply (alpha_range (17 # 2) 0 10 (Some 0%Q) 5 2 true false (7 # 14)).
  vm_compute. reflexivity.
Defined.

(** ** The size written by the vertex shader *)

Lemma size_factor_eq u vz :
  (Shader.size_factor u vz
   == 1 - Qabs (Shader.current_z u - vz) * (1 # 3))%Q.
Proof. reflexivity. Qed.

Lemma v_size_far u vt vz s :
  (3 <= Qabs (Shader.current_z u - vz))%Q →
  (Shader.v_size (Shader.apply_track_shading u vt vz s) == 0)%Q.
Proof.
  intros Hfar. cbn [Shader.apply_track_shading Shader.v_size].
  assert (Hf := size_factor_eq u vz). unfold GLSL.clamp.
  set (d := Qabs (Shader.current_z u - vz)) in *.
  assert (Hle : (Shader.size_factor u vz <= 0)%Q) by lra.
  rewrite (Q.max_r _ 0 Hle). rewrite Q.min_l by lra. lra.
Qed.

(** X5: the size the vertex shader writes depends on depth only.  For an
    incoming size [s >= 0] it lies between [0] and [s]; it is [s] for a
    vertex at the current depth and [0] for a vertex [3] or more away. *)
Theorem v_size_attenuation u vt vz s :
  let v := Shader.v_size (Shader.apply_track_shading u vt vz s) in
  ((0 <= s)%Q → (0 <= v <= s)%Q)
  ∧ ((vz == Shader.current_z u)%Q → (v == s)%Q)
  ∧ ((3 <= Qabs (Shader.current_z u - vz))%Q → (v == 0)%Q).
Proof.
  cbn [Shader.apply_track_shading Shader.v_size].
  assert (Hf := size_factor_eq u vz).
  assert (Hr := clamp_range (Shader.size_factor u vz)).
  assert (Hn := Qabs_nonneg (Shader.current_z u - vz)).
  split; [|split].
  - intros Hs. set (c := GLSL.clamp _ 0 1) in *. nra.
  - intros Hz.
    assert (Hd : (Shader.current_z u - vz == 0)%Q) by lra.
    assert (Ha : (Qabs (Shader.current_z u - vz) == 0)%Q)
      by (rewrite Hd; reflexivity).
    assert (Hone : (Shader.size_factor u vz == 1)%Q) by lra.
    rewrite clamp_inside by lra. rewrite Hone. ring.
  - intros Hfar. now apply (v_size_far u vt vz s).
Qed.

Lemma v_size_attenuation_witness :
  let u := shader_uniforms 10 (Some 2%Q) 5 2 true false in
  (0 <= Shader.v_size (Shader.apply_track_shading u 10 3 4) <= 4)%Q
  ∧ (Shader.v_size (Shader.apply_track_shading u 10 2 4) == 4)%Q
  ∧ (Shader.v_size (Shader.apply_track_shading u 10 (-1 # 1) 4) == 0)%Q.
Proof.
  intros u. split; [|split].
  - apply (v_size_attenuation u 10 3 4). discriminate.
  - apply (v_size_attenuation u 10 2 4). reflexivity.
  - apply (v_size_attenuation u 10 (-1 # 1) 4). discriminate.
Defined.

(** ** The fragment shader *)

Lemma fragment_kept_aux a s fa :
  (a <= 0)%Q ∨ (s <= 0)%Q → FragShader.apply_track_shading a s fa = None.
Proof.
  unfold FragShader.apply_track_shading. intros [H|H]; apply le_true in H;
    rewrite H; [reflexivity | now rewrite orb_true_r].
Qed.

(** X6: the fragment shader discards a fragment exactly when its
    interpolated alpha or size is not positive; the alpha of a fragment it
    keeps lies in [[0, 1]], and it is the product of the two alphas when the
    incoming one lies in [[0, 1]] and the interpolated one is at most [1]. *)
Theorem fragment_kept a s fa :
  (FragShader.apply_track_shading a s fa = None ↔ (a <= 0)%Q ∨ (s <= 0)%Q)
  ∧ ∀ c, FragShader.apply_track_shading a s fa = Some c →
         (0 <= c <= 1)%Q
         ∧ ((0 <= fa <= 1)%Q → (a <= 1)%Q → (c == a * fa)%Q).
Proof.
  unfold FragShader.apply_track_shading. split.
  - destruct (GLSL.le a 0) eqn:Ea; cbn [orb].
    + apply le_true in Ea. split; [now left | reflexivity].
    + destruct (GLSL.le s 0) eqn:Es.
      * apply le_true in Es. split; [now right | reflexivity].
      * apply le_false in Ea. apply le_false in Es.
        split; [discriminate | intros [?|?]; lra].
  - intros c. destruct (GLSL.le a 0) eqn:Ea; cbn [orb]; [discriminate|].
    destruct (GLSL.le s 0); [discriminate|].
    apply le_false in Ea. intros [= <-]. split; [apply clamp_range|].
    intros Hfa Ha. apply clamp_inside; nra.
Qed.

(** X7: with fading on, no fragment is drawn at a hidden vertex (ahead of
    the head, or depth-culled): its alpha is defined and the fragment
    shader discards it, whatever the size and the incoming alpha. *)
Theorem hidden_vertex_discarded vt vd ct cd tl hl ia s fa :
  Shader.time_cutoff (shader_uniforms ct cd tl hl true ia) vt
  || Shader.depth_cutoff (shader_uniforms ct cd tl hl true ia) vd = true →
  ∃ a, compute_alpha vt vd ct cd tl hl true ia = Some a
       ∧ FragShader.apply_track_shading a s fa = None.
Proof.
  intros Hhid. rewrite compute_alpha_eq. unfold Shader.window_alpha.
  rewrite Hhid.
  destruct (GLSL.le vt _); eexists; (split; [reflexivity|]);
    apply fragment_kept_aux; left; lra.
Qed.

Lemma hidden_vertex_discarded_witness :
  ∃ a, compute_alpha 13 0 10 (Some 0%Q) 5 2 true false = Some a
       ∧ FragShader.apply_track_shading a 1 1 = None.
Proof.
  apply (hidden_vertex_discarded 13 0 10 (Some 0%Q) 5 2 false 1 1).
  reflexivity.
Defined.

(** X8: a vertex whose depth is [3] or more away from the uploaded
    [current_z] is never drawn, whatever [interactive], [use_fade], the
    times and the alpha: the vertex shader writes size [0] and the fragment
    shader discards the fragment.  This includes an unset current depth,
    which is uploaded as [-1] and compared as a depth. *)
Theorem far_vertex_discarded u vt vz s a fa :
  (3 <= Qabs (Shader.current_z u - vz))%Q →
  FragShader.apply_track_shading a
    (Shader.v_size (Shader.apply_track_shading u vt vz s)) fa = None.
Proof.
  intros Hfar. apply fragment_kept_aux. right.
  assert (H := v_size_far u vt vz s Hfar). lra.
Qed.

Lemma far_vertex_discarded_witness :
  FragShader.apply_track_shading 1
    (Shader.v_size
       (Shader.apply_track_shading
          (shader_uniforms 10 None 5 2 false false) 10 2 1)) 1 = None.
Proof.
  apply (far_vertex_discarded (shader_uniforms 10 None 5 2 false false)
           10 2 1 1 1).
  discriminate.
Defined.

Lemma fragment_kept_witness :
  (FragShader.apply_track_shading (-100 # 1) 1 1 = None
   ↔ (-100 # 1 <= 0)%Q ∨ (1 <= 0)%Q)
  ∧ (0 <= GLSL.clamp ((1 # 2) * (1 # 2)) 0 1 <= 1)%Q
  ∧ (GLSL.clamp ((1 # 2) * (1 # 2)) 0 1 == (1 # 2) * (1 # 2))%Q.
Proof.
  split; [apply (fragment_kept (-100 # 1) 1 1)|].
  destruct (fragment_kept (1 # 2) 1 (1 # 2)) as [_ H].
  destruct (H (GLSL.clamp ((1 # 2) * (1 # 2)) 0 1) eq_refl) as [Hr Hp].
  split; [exact Hr|]. apply Hp; [split; discriminate | discriminate].
Defined.

(** ** A slice as the current time *)

Lemma fold_max_spec (r : list Q) (x : Q) :
  In (fold_left Qmax r x) (x :: r)
  ∧ ∀ y, In y (x :: r) → (y <= fold_left Qmax r x)%Q.
Proof.
  revert x. induction r as [|z r IH]; intros x; cbn [fold_left].
  - split; [now left | intros y [<-|[]]; lra].
  - destruct (IH (Qmax x z)) as [Hin Hub]. split.
    + destruct Hin as [Hm|Hin]; [|right; now right].
      rewrite <- Hm. unfold Qmax, GenericMinMax.gmax.
      destruct (x ?= z)%Q; [now left | right; now left | now left].
    + intros y [<-|[<-|Hy]].
      * apply Qle_trans with (Qmax x z);
          [apply Q.le_max_l | apply Hub; now left].
      * apply Qle_trans with (Qmax x z);
          [apply Q.le_max_r | apply Hub; now left].
      * apply Hub. now right.
Qed.


(** X10: on a filter whose vertex times are [vts], assigning a slice to
    [current_time] raises exactly when [vts] is empty; otherwise the
    property reads back the slice and the uniform is the maximum of [vts]:
    one of the vertex times, and at least each of them. *)
Theorem slice_uploads_latest_time self vts :
  TracksFilter._vertex_time self = Some vts →
  (TracksFilter.set_current_time TracksFilter.Slice self = None ↔ vts = [])
  ∧ ∀ self',
      TracksFilter.set_current_time TracksFilter.Slice self = Some self' →
      TracksFilter.current_time self' = Some TracksFilter.Slice
      ∧ ∃ m, TracksFilter.float_var self' "current_time" = Some m
             ∧ In m vts ∧ ∀ y, In y vts → (y <= m)%Q.
Proof.
  intros Hv. unfold TracksFilter.set_current_time.
  cbn [TracksFilter._vertex_time]. rewrite Hv. cbn [mbind option_bind].
  destruct vts as [|x r]; cbn [TracksFilter.np_max mbind option_bind].
  - split; [done | discriminate].
  - split; [split; discriminate|].
    intros self' [= <-]. split; [reflexivity|].
    exists (fold_left Qmax r x). unfold TracksFilter.float_var. cbn.
    simplify_map_eq. split; [reflexivity | apply fold_max_spec].
Qed.

Lemma slice_uploads_latest_time_witness :
  ∃ m,
    (self' ← TracksFilter.set_current_time TracksFilter.Slice
               (TracksFilter.set_vertex_time [3%Q; 7%Q; 5%Q]
                  TracksFilter.fresh);
     TracksFilter.float_var self' "current_time") = Some m
    ∧ In m [3%Q; 7%Q; 5%Q].
Proof.
  destruct (slice_uploads_latest_time
              (TracksFilter.set_vertex_time [3%Q; 7%Q; 5%Q]
                 TracksFilter.fresh) [3%Q; 7%Q; 5%Q] eq_refl) as [_ H].
  destruct (H _ eq_refl) as [_ (m & Hm & Hin & _)].
  exists m. split; [exact Hm | exact Hin].
Defined.

(** ** How assignments to the filter combine *)

Ltac unfold_setters :=
  unfold TracksFilter.assign, TracksFilter.set_current_time,
    TracksFilter.set_current_z, TracksFilter.set_use_fade,
    TracksFilter.set_interactive, TracksFilter.set_tail_length,
    TracksFilter.set_head_length, TracksFilter.set_vertex_time,
    TracksFilter.set_vertex_z in *;
  cbn [TracksFilter._current_time TracksFilter._current_z
       TracksFilter._use_fade TracksFilter._interactive
       TracksFilter._tail_length TracksFilter._head_length
       TracksFilter._vertex_time TracksFilter._vertex_z
       TracksFilter.vshader] in *.

Lemma assign_inv a self self' :
  TracksFilter.assign a self = Some self' →
  ∃ value,
    TracksFilter.vshader self'
    = <[template_variable a := value]> (TracksFilter.vshader self).
Proof.
  destruct a as [[x|]| | | | | | |]; unfold_setters;
    try (intros [= <-]; eexists; reflexivity).
  destruct (TracksFilter._vertex_time self) as [vts|]; cbn; [|discriminate].
  destruct (TracksFilter.np_max vts) as [m|]; cbn; [|discriminate].
  intros [= <-]. eexists; reflexivity.
Qed.

(** X11: an assignment touches nothing but its own parameter: every
    template variable other than the one it writes keeps its value, and
    every attribute other than its own is unchanged. *)
Theorem assign_frame a self self' :
  TracksFilter.assign a self = Some self' →
  (∀ name, name ≠ template_variable a →
           TracksFilter.vshader self' !! name
           = TracksFilter.vshader self !! name)
  ∧ (template_variable a = "current_time"
     ∨ TracksFilter._current_time self' = TracksFilter._current_time self)
  ∧ (template_variable a = "current_z"
     ∨ TracksFilter._current_z self' = TracksFilter._current_z self)
  ∧ (template_variable a = "use_fade"
     ∨ TracksFilter._use_fade self' = TracksFilter._use_fade self)
  ∧ (template_variable a = "interactive"
     ∨ TracksFilter._interactive self' = TracksFilter._interactive self)
  ∧ (template_variable a = "tail_length"
     ∨ TracksFilter._tail_length self' = TracksFilter._tail_length self)
  ∧ (template_variable a = "head_length"
     ∨ TracksFilter._head_length self' = TracksFilter._head_length self)
  ∧ (template_variable a = "a_vertex_time"
     ∨ TracksFilter._vertex_time self' = TracksFilter._vertex_time self)
  ∧ (template_variable a = "a_vertex_z"
     ∨ TracksFilter._vertex_z self' = TracksFilter._vertex_z self).
Proof.
  intros Ha. split.
  - intros name Hne. destruct (assign_inv a self self' Ha) as [value ->].
    now apply lookup_insert_ne.
  - destruct a as [[x|]| | | | | | |]; unfold_setters;
      try (injection Ha as <-; cbn; repeat split; auto).
    destruct (TracksFilter._vertex_time self) as [vts|]; cbn in Ha;
      [|discriminate].
    destruct (TracksFilter.np_max vts) as [m|]; cbn in Ha; [|discriminate].
    injection Ha as <-. cbn. repeat split; auto.
Qed.

Lemma assign_frame_witness :
  TracksFilter.vshader
    (TracksFilter.set_tail_length 7
       (TracksFilter.set_head_length 2 TracksFilter.fresh)) !! "head_length"
  = TracksFilter.vshader
      (TracksFilter.set_head_length 2 TracksFilter.fresh) !! "head_length".
Proof.
  apply (assign_frame (TracksFilter.SetTailLength 7)
           (TracksFilter.set_head_length 2 TracksFilter.fresh) _ eq_refl).
  discriminate.
Defined.

(** The value a [current_time] assignment uploads. *)
Lemma set_current_time_inv n self self' :
  TracksFilter.set_current_time n self = Some self' →
  ∃ m,
    match n with
    | TracksFilter.Scalar x => Some x
    | TracksFilter.Slice =>
        TracksFilter._vertex_time self ≫= TracksFilter.np_max
    end = Some m
    ∧ self' =
      TracksFilter.Build (Some n) (TracksFilter._current_z self)
        (TracksFilter._use_fade self) (TracksFilter._interactive self)
        (TracksFilter._tail_length self) (TracksFilter._head_length self)
        (TracksFilter._vertex_time self) (TracksFilter._vertex_z self)
        (<["current_time" := TracksFilter.Float m]>
           (TracksFilter.vshader self)).
Proof.
  unfold TracksFilter.set_current_time. cbn [TracksFilter._vertex_time].
  destruct n as [x|].
  - cbn. intros [= <-]. now exists x.
  - destruct (TracksFilter._vertex_time self ≫= TracksFilter.np_max)
      as [m|]; cbn; [|discriminate].
    intros [= <-]. now exists m.
Qed.

(** X12: the last assignment to a parameter wins: assigning a parameter
    twice leaves the filter as the second assignment alone would. *)
Theorem assign_twice a b self self1 self2 :
  template_variable a = template_variable b →
  TracksFilter.assign a self = Some self1 →
  TracksFilter.assign b self1 = Some self2 →
  TracksFilter.assign b self = Some self2.
Proof.
  intros Hn Ha Hb.
  destruct a as [na| | | | | | |], b as [nb| | | | | | |];
    try discriminate Hn; cbn [TracksFilter.assign] in *.
  - apply set_current_time_inv in Ha as (ma & _ & ->).
    apply set_current_time_inv in Hb as (mb & Hmb & ->).
    cbn [TracksFilter._vertex_time TracksFilter._current_z
         TracksFilter._use_fade TracksFilter._interactive
         TracksFilter._tail_length TracksFilter._head_length
         TracksFilter._vertex_z TracksFilter.vshader] in *.
    unfold TracksFilter.set_current_time.
    cbn [TracksFilter._vertex_time TracksFilter._current_z
         TracksFilter._use_fade TracksFilter._interactive
         TracksFilter._tail_length TracksFilter._head_length
         TracksFilter._vertex_z TracksFilter.vshader
         TracksFilter._current_time].
    destruct nb as [y|]; cbn in Hmb |- *.
    + injection Hmb as ->. now rewrite insert_insert_eq.
    + destruct (TracksFilter._vertex_time self) as [vts|]; cbn in Hmb |- *;
        [|discriminate].
      rewrite Hmb. cbn. now rewrite insert_insert_eq.
  - injection Ha as <-. injection Hb as <-. unfold_setters.
    now rewrite insert_insert_eq.
  - injection Ha as <-. injection Hb as <-. unfold_setters.
    now rewrite insert_insert_eq.
  - injection Ha as <-. injection Hb as <-. unfold_setters.
    now rewrite insert_insert_eq.
  - injection Ha as <-. injection Hb as <-. unfold_setters.
    now rewrite insert_insert_eq.
  - injection Ha as <-. injection Hb as <-. unfold_setters.
    now rewrite insert_insert_eq.
  - injection Ha as <-. injection Hb as <-. unfold_setters.
    now rewrite insert_insert_eq.
  - injection Ha as <-. injection Hb as <-. unfold_setters.
    now rewrite insert_insert_eq.
Qed.

Lemma assign_twice_witness :
  TracksFilter.assign (TracksFilter.SetTailLength 7) TracksFilter.fresh
  = Some (TracksFilter.set_tail_length 7
            (TracksFilter.set_tail_length 30 TracksFilter.fresh)).
Proof.
  apply (assign_twice (TracksFilter.SetTailLength 30)
           (TracksFilter.SetTailLength 7) TracksFilter.fresh
           (TracksFilter.set_tail_length 30 TracksFilter.fresh));
    reflexivity.
Defined.

(** X13: assignments to two different parameters can be made in either
    order with the same resulting filter, as long as neither assigns a
    slice to [current_time] (which reads the vertex times). *)
Theorem assign_commute a b self :
  template_variable a ≠ template_variable b →
  a ≠ TracksFilter.SetCurrentTime TracksFilter.Slice →
  b ≠ TracksFilter.SetCurrentTime TracksFilter.Slice →
  (self1 ← TracksFilter.assign a self; TracksFilter.assign b self1)
  = (self1 ← TracksFilter.assign b self; TracksFilter.assign a self1).
Proof.
  intros Hn Ha Hb.
  destruct a as [[x|]| | | | | | |]; try (now destruct Ha);
    destruct b as [[y|]| | | | | | |]; try (now destruct Hb);
    try (now destruct Hn);
    cbn; unfold_setters; f_equal; f_equal;
    apply insert_insert_ne; intros E; apply Hn; cbn; congruence.
Qed.

Lemma assign_commute_witness :
  (self1 ← TracksFilter.assign (TracksFilter.SetTailLength 7)
             TracksFilter.fresh;
   TracksFilter.assign (TracksFilter.SetUseFade false) self1)
  = (self1 ← TracksFilter.assign (TracksFilter.SetUseFade false)
               TracksFilter.fresh;
     TracksFilter.assign (TracksFilter.SetTailLength 7) self1).
Proof.
  apply (assign_commute (TracksFilter.SetTailLength 7)
           (TracksFilter.SetUseFade false) TracksFilter.fresh);
    discriminate.
Defined.

(** X14: the [current_time] uniform computed from a slice is not refreshed
    when [vertex_time] is assigned afterwards: it keeps the maximum of the
    old vertex times, while the vertex buffer holds the new ones. *)
Theorem slice_time_goes_stale self old new m :
  TracksFilter._vertex_time self = Some old →
  TracksFilter.np_max old = Some m →
  ∃ self1,
    TracksFilter.set_current_time TracksFilter.Slice self = Some self1
    ∧ let self2 := TracksFilter.set_vertex_time new self1 in
      TracksFilter.float_var self2 "current_time" = Some m
      ∧ TracksFilter.buffer_var self2 "a_vertex_time" = Some new
      ∧ TracksFilter.vertex_time self2 = Some new
      ∧ TracksFilter.current_time self2 = Some TracksFilter.Slice.
Proof.
  intros Hold Hm. unfold TracksFilter.set_current_time.
  cbn [TracksFilter._vertex_time]. rewrite Hold. cbn. rewrite Hm. cbn.
  eexists. split; [reflexivity|].
  unfold TracksFilter.float_var, TracksFilter.buffer_var. cbn.
  simplify_map_eq. repeat split.
Qed.

Lemma slice_time_goes_stale_witness :
  ∃ self1,
    TracksFilter.set_current_time TracksFilter.Slice
      (TracksFilter.set_vertex_time [3%Q; 7%Q] TracksFilter.fresh)
    = Some self1
    ∧ TracksFilter.float_var (TracksFilter.set_vertex_time [9%Q] self1)
        "current_time" = Some 7%Q.
Proof.
  destruct (slice_time_goes_stale
              (TracksFilter.set_vertex_time [3%Q; 7%Q] TracksFilter.fresh)
              [3%Q; 7%Q] [9%Q] 7 eq_refl eq_refl) as (self1 & E & H & _).
  exists self1. split; [exact E | exact H].
Defined.

(** ** Shading the vertices of a constructed filter *)





(** ** [ImageSliceData]: success, failure, repetition *)

Section SliceData.

Import ImageSliceData.

Context {Layer Index ArrayLike Order : Type}.
Variable np_asarray : ArrayLike → option ArrayLike.
Variable np_transpose : ArrayLike → Order → option ArrayLike.

Local Abbreviation slice := (ImageSliceData.t Layer Index ArrayLike).

Lemma on_both_returned (f : ArrayLike → option ArrayLike) (self self' : slice) :
  on_both f self = (Returned, self') ↔
  layer self' = layer self ∧ indices self' = indices self
  ∧ f (image self) = Some (image self')
  ∧ thumbnail_source self' = thumbnail_source self ≫= f
  ∧ (is_Some (thumbnail_source self) → is_Some (thumbnail_source self')).
Proof.
  unfold on_both. destruct self as [l ix img src], self' as [l' ix' img' src'].
  cbn. split.
  - destruct (f img) as [img1|]; [|discriminate].
    destruct src as [a|]; cbn.
    + destruct (f a) as [a'|]; [|discriminate].
      intros [= <- <- <- <-]. repeat split; eauto.
    + intros [= <- <- <- <-]. repeat split. intros [? [=]].
  - intros (-> & -> & -> & -> & Hs). destruct src as [a|]; cbn in *.
    + destruct (f a) as [a'|]; [reflexivity|].
      destruct Hs as [? [=]]. eauto.
    + reflexivity.
Qed.

(** X16: [load_sync] and [transpose] return exactly when numpy succeeds on
    the image and on the thumbnail source when there is one; the image and
    the thumbnail source are then both replaced by numpy's results, with
    the same [order] for both in [transpose]. *)
Theorem slice_data_returned (order : Order) (self self' : slice) :
  (load_sync np_asarray self = (Returned, self') ↔
   layer self' = layer self ∧ indices self' = indices self
   ∧ np_asarray (image self) = Some (image self')
   ∧ thumbnail_source self' = thumbnail_source self ≫= np_asarray
   ∧ (is_Some (thumbnail_source self) → is_Some (thumbnail_source self')))
  ∧ (transpose np_transpose order self = (Returned, self') ↔
     layer self' = layer self ∧ indices self' = indices self
     ∧ np_transpose (image self) order = Some (image self')
     ∧ thumbnail_source self'
       = thumbnail_source self ≫= (λ a, np_transpose a order)
     ∧ (is_Some (thumbnail_source self) → is_Some (thumbnail_source self'))).
Proof. split; apply on_both_returned. Qed.

(** X17: when numpy raises, the exception leaves the object as it was if
    it came from the image, and half-updated if it came from the thumbnail
    source: the image is already replaced, the thumbnail source is not. *)
Theorem slice_data_raised (order : Order) (self : slice) :
  (np_transpose (image self) order = None →
   transpose np_transpose order self = (Raised, self))
  ∧ (∀ image' source,
       np_transpose (image self) order = Some image' →
       thumbnail_source self = Some source →
       np_transpose source order = None →
       transpose np_transpose order self
       = (Raised, Build (layer self) (indices self) image' (Some source)))
  ∧ (np_asarray (image self) = None →
     load_sync np_asarray self = (Raised, self))
  ∧ (∀ image' source,
       np_asarray (image self) = Some image' →
       thumbnail_source self = Some source →
       np_asarray source = None →
       load_sync np_asarray self
       = (Raised, Build (layer self) (indices self) image' (Some source))).
Proof.
  unfold transpose, load_sync, on_both. repeat split.
  - now intros ->.
  - intros image' source -> Hs Hf. cbn. now rewrite Hs, Hf.
  - now intros ->.
  - intros image' source -> Hs Hf. cbn. now rewrite Hs, Hf.
Qed.

(** X18: loading twice is loading once, as long as [np.asarray] returns
    an array it has returned unchanged. *)
Theorem load_sync_idempotent (self self' : slice) :
  (∀ a b, np_asarray a = Some b → np_asarray b = Some b) →
  load_sync np_asarray self = (Returned, self') →
  load_sync np_asarray self' = (Returned, self').
Proof.
  intros Hid Hload. apply on_both_returned in Hload as (_ & _ & Hi & Hs & _).
  apply on_both_returned. repeat split; [eauto | | auto].
  destruct (thumbnail_source self) as [a|]; cbn in Hs.
  - rewrite Hs. destruct (np_asarray a) as [b|] eqn:E; cbn; [|reflexivity].
    symmetry. eauto.
  - now rewrite Hs.
Qed.

(** X19: transposing with an order and then with an order that undoes it
    restores the image and the thumbnail source. *)
Theorem transpose_undone (order back : Order) (self self' : slice) :
  (∀ a b, np_transpose a order = Some b → np_transpose b back = Some a) →
  transpose np_transpose order self = (Returned, self') →
  transpose np_transpose back self' = (Returned, self).
Proof.
  intros Hinv Ht.
  apply (on_both_returned (λ a, np_transpose a order)) in Ht
    as (Hl & Hx & Hi & Hs & Hsome).
  apply (on_both_returned (λ a, np_transpose a back)).
  split; [now symmetry|]. split; [now symmetry|].
  split; [now apply Hinv|].
  destruct (thumbnail_source self) as [a|]; cbn in Hs.
  - rewrite Hs. destruct (np_transpose a order) as [b|] eqn:E; cbn.
    + split; [symmetry; now apply Hinv | eauto].
    + destruct Hsome as [b Hb]; [eauto|]. congruence.
  - rewrite Hs. split; [reflexivity | intros [? [=]]].
Qed.

End SliceData.

Lemma load_sync_idempotent_witness :
  ImageSliceData.load_sync Some
    (ImageSliceData.Build "tracks" [None; Some 2%nat] [1; 2; 3] (Some [4; 5]))
  = (ImageSliceData.Returned,
     ImageSliceData.Build "tracks" [None; Some 2%nat] [1; 2; 3]
       (Some [4; 5])).
Proof.
  apply (load_sync_idempotent Some
           (ImageSliceData.Build "tracks" [None; Some 2%nat] [1; 2; 3]
              (Some [4; 5]))).
  - intros a b [= <-]. reflexivity.
  - reflexivity.
Defined.

Lemma transpose_undone_witness :
  ImageSliceData.transpose (λ (a : list nat) (_ : unit), Some (rev a)) ()
    (ImageSliceData.Build "tracks" [None; Some 2%nat] [3; 2; 1] (Some [5; 4]))
  = (ImageSliceData.Returned,
     ImageSliceData.Build "tracks" [None; Some 2%nat] [1; 2; 3]
       (Some [4; 5])).
Proof.
  apply (transpose_undone (λ (a : list nat) (_ : unit), Some (rev a)) () ()
           (ImageSliceData.Build "tracks" [None; Some 2%nat] [1; 2; 3]
              (Some [4; 5]))).
  - intros a b [= <-]. now rewrite rev_involutive.
  - reflexivity.
Defined.

(** ** [interact]: the other branches and the layer after a drag *)

Section InteractMore.

Import TracksMouseBindings.

Context {Position TrackId VertexId L : Type}.
Context {methods : TrackLayer Position TrackId VertexId L}.

(** X20: with Shift and Control held, in either order, [interact] calls
    [select(position)] first.  If the layer then has no [_selected_data] it
    stores what [select] returned, without any other call; otherwise it
    calls [join(_selected_data, selected)] exactly when [select] returned a
    vertex.  The generator finishes on the press: later events do
    nothing. *)
Theorem shift_control_joins (layer : L) (p : Position) (ty : string)
    (later : list (Event Position)) (m1 m2 : string) :
  (m1 = "Shift" ∧ m2 = "Control") ∨ (m1 = "Control" ∧ m2 = "Shift") →
  interaction layer (MkEvent [m1; m2] p ty) later
  = (Finished,
     let '(selected, layer1) := select p layer in
     match _selected_data layer1 with
     | None => (set_selected_data selected layer1, [Select p])
     | Some first =>
         match selected with
         | Some v => (join first v layer1, [Select p; Join first v])
         | None => (layer1, [Select p])
         end
     end).
Proof.
  intros [[-> ->]|[-> ->]]; unfold interaction;
    cbn [next start modifiers position];
    rewrite !bool_decide_eq_true_2 by set_solver; cbn [andb];
    unfold do_select, do_call; cbn [fst snd app];
    destruct (select p layer) as [selected layer1]; cbn [fst snd];
    destruct (_selected_data layer1) as [first|];
    try destruct selected as [v|]; apply resume_finished.
Qed.

(** X21: [interact] does nothing (no call, layer unchanged, generator
    finished) when no modifier or more than two are held, when the single
    modifier is none of Shift, Alt and Control, and when two are held that
    are not Shift together with Control. *)
Theorem other_modifiers_ignored (layer : L) (mods : list string)
    (p : Position) (ty : string) (later : list (Event Position)) :
  mods = []
  ∨ (2 < length mods)%nat
  ∨ (∃ m, mods = [m] ∧ m ≠ "Shift" ∧ m ≠ "Alt" ∧ m ≠ "Control")
  ∨ (∃ m1 m2, mods = [m1; m2]
              ∧ ("Shift" ∉ [m1; m2] ∨ "Control" ∉ [m1; m2])) →
  interaction layer (MkEvent mods p ty) later = (Finished, (layer, [])).
Proof.
  unfold interaction.
  intros [->|[Hlen|[(m & -> & Hs & Ha & Hc)|(m1 & m2 & -> & Hno)]]];
    cbn [next start modifiers].
  - apply resume_finished.
  - destruct mods as [|? [|? [|? ?]]]; cbn in Hlen; try lia.
    apply resume_finished.
  - apply String.eqb_neq in Hs, Ha, Hc. rewrite Hs, Ha, Hc.
    apply resume_finished.
  - assert (E : bool_decide ("Shift" ∈ [m1; m2])
                && bool_decide ("Control" ∈ [m1; m2]) = false).
    { apply andb_false_iff.
      destruct Hno as [H|H]; [left|right]; now apply bool_decide_eq_false. }
    rewrite E. apply resume_finished.
Qed.

(** The layer, the trace and the generator after resuming a drag. *)
Lemma resume_dragging_state (later : list (Event Position)) (v : VertexId)
    (w : L * list (call Position TrackId VertexId)) :
  resume later (Dragging v) w
  = (if forallb (λ e, String.eqb (type e) "mouse_move") later
     then Dragging v else Finished,
     (fold_left (λ l q, move v q l) (moves_until_release later) (fst w),
      snd w ++ map (Move v) (moves_until_release later))).
Proof.
  revert w. induction later as [|event later IH]; intros [l tr].
  - cbn. now rewrite app_nil_r.
  - cbn [resume next moves_until_release forallb].
    destruct (String.eqb (type event) "mouse_move").
    + rewrite IH. cbn. now rewrite <- app_assoc.
    + rewrite resume_finished. cbn. now rewrite app_nil_r.
Qed.

(** X22: a Control drag that selects vertex [v] moves it through the
    positions of the later [mouse_move] events in order, up to the first
    other event: the layer ends as [select] left it with those moves
    applied one after the other; the generator is still suspended only if
    every later event was a [mouse_move]. *)
Theorem drag_moves_layer (layer layer1 : L) (v : VertexId) (p : Position)
    (ty : string) (later : list (Event Position)) :
  select p layer = (Some v, layer1) →
  interaction layer (MkEvent ["Control"] p ty) later
  = (if forallb (λ e, String.eqb (type e) "mouse_move") later
     then Dragging v else Finished,
     (fold_left (λ l q, move v q l) (moves_until_release later) layer1,
      Select p :: map (Move v) (moves_until_release later))).
Proof.
  intros Hsel. unfold interaction. cbn [next start modifiers position].
  cbn [String.eqb Ascii.eqb Bool.eqb]. unfold do_select. cbn [fst snd app].
  rewrite Hsel. cbn [fst snd]. now rewrite resume_dragging_state.
Qed.

End InteractMore.

Lemma shift_control_joins_witness :
  TracksMouseBindings.interaction (methods := TracksMouseBindings.probe_layer)
    (7, Some 104)
    (TracksMouseBindings.MkEvent ["Control"; "Shift"] 5 "mouse_press") []
  = (TracksMouseBindings.Finished,
     ((7, Some 104),
      [TracksMouseBindings.Select 5; TracksMouseBindings.Join 104 105])).
Proof.
  apply (shift_control_joins (methods := TracksMouseBindings.probe_layer)
           (7, Some 104) 5 "mouse_press" [] "Control" "Shift").
  right. split; reflexivity.
Defined.

Lemma other_modifiers_ignored_witness :
  TracksMouseBindings.interaction (methods := TracksMouseBindings.probe_layer)
    (7, None)
    (TracksMouseBindings.MkEvent ["Meta"] 5 "mouse_press")
    [TracksMouseBindings.MkEvent ["Meta"] 6 "mouse_move"]
  = (TracksMouseBindings.Finished, ((7, None), [])).
Proof.
  apply (other_modifiers_ignored (methods := TracksMouseBindings.probe_layer)).
  right. right. left. exists "Meta". repeat split; discriminate.
Defined.

Lemma drag_moves_layer_witness :
  TracksMouseBindings.interaction (methods := TracksMouseBindings.probe_layer)
    (7, None)
    (TracksMouseBindings.MkEvent ["Control"] 1 "mouse_press")
    [TracksMouseBindings.MkEvent ["Control"] 2 "mouse_move";
     TracksMouseBindings.MkEvent ["Control"] 3 "mouse_release"]
  = (TracksMouseBindings.Finished,
     ((7, None),
      [TracksMouseBindings.Select 1; TracksMouseBindings.Move 101 2])).
Proof.
  apply (drag_moves_layer (methods := TracksMouseBindings.probe_layer)
           (7, None) (7, None) 101 1 "mouse_press").
  reflexivity.
Defined.

Lemma slice_data_raised_witness :
  let transpose3 := λ (a : list nat) (_ : unit),
    if Nat.eqb (length a) 3 then Some (rev a) else None in
  ImageSliceData.transpose transpose3 ()
    (ImageSliceData.Build "tracks" [None; Some 2%nat] [1; 2; 3] (Some [4; 5]))
  = (ImageSliceData.Raised,
     ImageSliceData.Build "tracks" [None; Some 2%nat] [3; 2; 1]
       (Some [4; 5])).
Proof.
  intros transpose3.
  destruct (slice_data_raised (λ a : list nat, Some a) transpose3 ()
              (ImageSliceData.Build "tracks" [None; Some 2%nat] [1; 2; 3]
                 (Some [4; 5]))) as (_ & H & _).
  apply (H [3; 2; 1] [4; 5]); reflexivity.
Defined.
